(** * The release-publishing script [.ci/update-release.py]

    The script is a straight line of module-level statements: it checks
    three environment variables, splits the repository identifier, reads
    the VERSION file, looks a release up by tag and uploads two binaries.

    The embedding follows the script statement by statement.  Python's
    module namespace is a finite map from names to values, every statement
    is a computation in a small state-and-exception monad, and everything
    the script does to the outside (file reads, release lookup, file opens,
    uploads) is appended to a trace.  The outside itself (environment,
    file system, hosting service) is a read-only record [world]. *)

From Stdlib Require Import Ascii String.
From stdpp Require Import gmap strings list fin_maps.

Local Open Scope string_scope.
Set Warnings "-register-all".

(** ** Strings and paths *)

(** [str.split(sep)] for a one-character separator: every occurrence
    splits, empty pieces are kept. *)
Fixpoint split_on (sep : ascii) (s : string) : list string :=
  match s with
  | EmptyString => [EmptyString]
  | String a s' =>
      if Ascii.eqb a sep then EmptyString :: split_on sep s'
      else match split_on sep s' with
           | [] => [String a EmptyString]
           | piece :: rest => String a piece :: rest
           end
  end.

Fixpoint occurs (c : ascii) (s : string) : bool :=
  match s with
  | EmptyString => false
  | String a s' => Ascii.eqb a c || occurs c s'
  end.

(** A resolved [pathlib.Path] is the list of its components below the
    root. *)
Abbreviation path := (list string).

Definition is_absolute (s : string) : bool :=
  match s with
  | String "/"%char _ => true
  | _ => false
  end.

Definition keep_component (s : string) : bool :=
  negb (String.eqb s "") && negb (String.eqb s ".").

Definition path_parts (s : string) : path :=
  filter (λ c, keep_component c = true) (split_on "/"%char s).

(** [p / s]: an absolute right operand replaces the left one, a relative
    one is appended component by component. *)
Definition path_div (p : path) (s : string) : path :=
  if is_absolute s then path_parts s else p ++ path_parts s.

Fixpoint path_str (p : path) : string :=
  match p with
  | [] => ""
  | c :: p' => "/" +:+ c +:+ path_str p'
  end.

(** ** Values, exceptions, events *)

Inductive pyval : Type :=
| VStr (s : string)
| VPath (p : path)
| VList (items : list pyval)
| VBinary (bpath bname : string)
| VModule (name : string)
| VClass (name : string)
| VFunction (name : string)
| VBuiltin (name : string)
| VCfgFactory
| VGithubCfg (cfg : string)
| VHelper (owner name cfg : string)
| VRepository (owner name cfg : string)
| VRelease (owner name tag : string)
| VFile (p : path)
| VMethod (self : pyval) (name : string).

Inductive pyexc : Type :=
| ConfigurationError (var : string)
| ValueError (detail : string)
| NameError (name : string)
| AttributeError (type_name attr : string)
| TypeError (detail : string)
| ConfigElementNotFoundError (name : string)
| IOError (p : path)
| NotFoundError (tag : string)
| UploadError (asset_name : string).

Inductive event : Type :=
| EReadText (p : path)
| ELookup (owner name tag : string)
| EOpen (p : path)
| EUpload (owner name tag : string) (asset_name content_type : string)
          (asset : path).

Definition is_upload (e : event) : bool :=
  match e with
  | EUpload _ _ _ _ _ _ => true
  | _ => false
  end.


Definition uploads (tr : list event) : list event :=
  filter (λ e, is_upload e = true) tr.


(** ** The outside world *)

Record world : Type := World {
  environ : gmap string string;
  github_cfgs : gmap string string;
  resolve : string → path;
  files : gmap path string;
  releases : list (string * string * string);
  upload_accepts : string → bool;
}.

Definition has_release (w : world) (owner name tag : string) : bool :=
  bool_decide ((owner, name, tag) ∈ releases w).

(** ** Interpreter state and monad *)

Record state : Type := State {
  globals : gmap string pyval;
  trace : list event;
  open_files : list path;
}.

Definition init : state :=
  {| globals := ∅; trace := []; open_files := [] |}.

Inductive outcome (A : Type) : Type :=
| Ok (a : A)
| Raise (e : pyexc).
Arguments Ok {A} a.
Arguments Raise {A} e.

Definition M (A : Type) : Type := state → outcome A * state.

Definition ret {A} (a : A) : M A := λ st, (Ok a, st).

Definition raise {A} (e : pyexc) : M A := λ st, (Raise e, st).

Definition bind {A B} (m : M A) (k : A → M B) : M B :=
  λ st, match m st with
        | (Ok a, st') => k a st'
        | (Raise e, st') => (Raise e, st')
        end.

#[global] Instance M_ret : MRet M := @ret.
#[global] Instance M_bind : MBind M := λ A B k m, bind m k.

Definition emit (e : event) : M unit :=
  λ st, (Ok tt, {| globals := globals st; trace := trace st ++ [e];
                   open_files := open_files st |}).

Definition store_name (x : string) (v : pyval) : M unit :=
  λ st, (Ok tt, {| globals := <[x := v]> (globals st); trace := trace st;
                   open_files := open_files st |}).

Definition mark_open (p : path) : M unit :=
  λ st, (Ok tt, {| globals := globals st; trace := trace st;
                   open_files := open_files st ++ [p] |}).

(** Names of Python's built-in functions; a name that is not in the module
    namespace is looked up here before [NameError] is raised. *)
Definition builtin_functions : list string :=
  ["abs"; "aiter"; "all"; "anext"; "any"; "ascii"; "bin"; "breakpoint";
   "callable"; "chr"; "compile"; "delattr"; "dir"; "divmod"; "eval"; "exec";
   "format"; "getattr"; "globals"; "hasattr"; "hash"; "hex"; "id"; "input";
   "isinstance"; "issubclass"; "iter"; "len"; "locals"; "max"; "min";
   "next"; "oct"; "open"; "ord"; "pow"; "print"; "repr"; "round"; "setattr";
   "sorted"; "sum"; "vars"].

Definition load_name (x : string) : M pyval :=
  λ st, match globals st !! x with
        | Some v => (Ok v, st)
        | None =>
            if bool_decide (x ∈ builtin_functions)
            then (Ok (VBuiltin x), st)
            else (Raise (NameError x), st)
        end.

Definition type_name (v : pyval) : string :=
  match v with
  | VStr _ => "str"
  | VPath _ => "PosixPath"
  | VList _ => "list"
  | VBinary _ _ => "Binary"
  | VModule _ => "module"
  | VClass _ => "type"
  | VFunction _ => "function"
  | VBuiltin _ => "builtin_function_or_method"
  | VCfgFactory => "ConfigFactory"
  | VGithubCfg _ => "GithubConfig"
  | VHelper _ _ _ => "GitHubRepositoryHelper"
  | VRepository _ _ _ => "Repository"
  | VRelease _ _ _ => "Release"
  | VFile _ => "BufferedReader"
  | VMethod _ _ => "method"
  end.

(** Attribute access, for the attributes the script reads. *)
Definition getattr (v : pyval) (a : string) : M pyval :=
  let missing := raise (AttributeError (type_name v) a) in
  match v with
  | VBinary p n =>
      if String.eqb a "path" then ret (VStr p)
      else if String.eqb a "name" then ret (VStr n)
      else missing
  | VPath _ =>
      if String.eqb a "read_text" || String.eqb a "open"
      then ret (VMethod v a) else missing
  | VCfgFactory =>
      if String.eqb a "github" then ret (VMethod v a) else missing
  | VHelper o n c =>
      if String.eqb a "repository" then ret (VRepository o n c) else missing
  | VRepository _ _ _ =>
      if String.eqb a "release_from_tag" then ret (VMethod v a) else missing
  | VRelease _ _ _ =>
      if String.eqb a "upload_asset" then ret (VMethod v a) else missing
  | _ => missing
  end.

(** [str(v)] as an f-string field renders it; only strings and paths have
    a rendering that depends on their contents here. *)
Definition py_str (v : pyval) : string :=
  match v with
  | VStr s => s
  | VPath p => path_str p
  | _ => "<" +:+ type_name v +:+ ">"
  end.

(** ** Library calls *)

Section Script.
Context (w : world).

(** Modelled from the spec: [util.check_env] belongs to the CI utility
    library, which is not under src/.  "Each must be present and
    non-empty, else fail with a configuration error identifying the
    missing variable name." *)
Definition env_value (name : string) : option string :=
  match environ w !! name with
  | Some v => if String.eqb v "" then None else Some v
  | None => None
  end.

Definition check_env (name : string) : M pyval :=
  match env_value name with
  | Some v => mret (VStr v)
  | None => raise (ConfigurationError name)
  end.

(** [s.split(sep)] *)
Definition str_split (v : pyval) (sep : ascii) : M (list pyval) :=
  match v with
  | VStr s => mret (VStr <$> split_on sep s)
  | _ => raise (AttributeError (type_name v) "split")
  end.

(** [pathlib.Path(s).resolve()] *)
Definition path_resolve (v : pyval) : M pyval :=
  match v with
  | VStr s => mret (VPath (resolve w s))
  | VPath p => mret (VPath p)
  | _ => raise (TypeError "expected str, bytes or os.PathLike object")
  end.

(** [p / s] *)
Definition truediv (l r : pyval) : M pyval :=
  match l, r with
  | VPath p, VStr s => mret (VPath (path_div p s))
  | _, _ => raise (TypeError "unsupported operand type(s) for /")
  end.

(** [p.read_text()] *)
Definition call_read_text (m : pyval) : M pyval :=
  match m with
  | VMethod (VPath p) _ =>
      emit (EReadText p);;
      match files w !! p with
      | Some text => mret (VStr text)
      | None => raise (IOError p)
      end
  | _ => raise (TypeError "object is not callable")
  end.

(** [p.open(mode='rb')] *)
Definition call_open (m : pyval) : M pyval :=
  match m with
  | VMethod (VPath p) _ =>
      emit (EOpen p);;
      match files w !! p with
      | Some _ => mark_open p;; mret (VFile p)
      | None => raise (IOError p)
      end
  | _ => raise (TypeError "object is not callable")
  end.

(** [cfg_factory.github(name)] *)
Definition call_github (m : pyval) (name : string) : M pyval :=
  match m with
  | VMethod VCfgFactory _ =>
      match github_cfgs w !! name with
      | Some c => mret (VGithubCfg c)
      | None => raise (ConfigElementNotFoundError name)
      end
  | _ => raise (TypeError "object is not callable")
  end.

(** [GitHubRepositoryHelper(owner=..., name=..., github_cfg=...)] *)
Definition new_helper (owner name cfg : pyval) : M pyval :=
  match owner, name, cfg with
  | VStr o, VStr n, VGithubCfg c => mret (VHelper o n c)
  | _, _, _ => raise (TypeError "GitHubRepositoryHelper")
  end.

(** [repository.release_from_tag(tag)]: the release handle, or the
    hosting service's not-found error. *)
Definition call_release_from_tag (m tag : pyval) : M pyval :=
  match m, tag with
  | VMethod (VRepository o n _) _, VStr t =>
      emit (ELookup o n t);;
      if has_release w o n t then mret (VRelease o n t)
      else raise (NotFoundError t)
  | _, _ => raise (TypeError "release_from_tag")
  end.

(** [release.upload_asset(content_type=..., name=..., asset=...)] *)
Definition call_upload_asset (m content_type name asset : pyval) : M unit :=
  match m, content_type, name, asset with
  | VMethod (VRelease o n t) _, VStr ct, VStr nm, VFile p =>
      emit (EUpload o n t nm ct p);;
      if upload_accepts w nm then mret tt else raise (UploadError nm)
  | _, _, _, _ => raise (TypeError "upload_asset")
  end.

Definition as_list (v : pyval) : M (list pyval) :=
  match v with
  | VList items => mret items
  | _ => raise (TypeError "object is not iterable")
  end.

(** [for var in items: body] *)
Fixpoint for_each (var : string) (body : M unit) (items : list pyval)
  : M unit :=
  match items with
  | [] => mret tt
  | x :: rest => store_name var x;; body;; for_each var body rest
  end.

(** ** The script, line by line *)

(** Lines 3-12: the imports and the [Binary] dataclass. *)
Definition line3_12 : M unit :=
  store_name "dataclass" (VFunction "dataclass");;
  store_name "pathlib" (VModule "pathlib");;
  store_name "util" (VModule "util");;
  store_name "GitHubRepositoryHelper" (VClass "GitHubRepositoryHelper");;
  store_name "Binary" (VClass "Binary").

Definition OUTPUT_FILE_BINARIES : list pyval :=
  [ VBinary "darwin-amd64" "gardenctl_v2_darwin_amd64";
    VBinary "linux-amd64" "gardenctl_v2_linux_amd64" ].

Definition line14_23 : M unit :=
  store_name "OUTPUT_FILE_BINARIES" (VList OUTPUT_FILE_BINARIES).

Definition line24 : M unit :=
  store_name "VERSION_FILE_NAME" (VStr "VERSION").

Definition line26 : M unit :=
  v ← check_env "SOURCE_GITHUB_REPO_OWNER_AND_NAME";
  store_name "repo_owner_and_name" v.

Definition line27 : M unit :=
  v ← check_env "MAIN_REPO_DIR";
  store_name "repo_dir" v.

Definition line28 : M unit :=
  v ← check_env "BINARY_PATH";
  store_name "output_dir" v.

Definition line30 : M unit :=
  v ← load_name "repo_owner_and_name";
  parts ← str_split v "/";
  match parts with
  | [owner; name] =>
      store_name "repo_owner" owner;; store_name "repo_name" name
  | [] | [_] => raise (ValueError "not enough values to unpack")
  | _ => raise (ValueError "too many values to unpack")
  end.

Definition line32 : M unit :=
  p ← load_name "version_file_path";
  m ← getattr p "read_text";
  text ← call_read_text m;
  store_name "version_file_contents" text.

Definition line34 : M unit :=
  store_name "cfg_factory" VCfgFactory.

Definition line35 : M unit :=
  f ← load_name "cfg_factory";
  m ← getattr f "github";
  c ← call_github m "github_com";
  store_name "github_cfg" c.

Definition line37_41 : M unit :=
  owner ← load_name "repo_owner";
  name ← load_name "repo_name";
  cfg ← load_name "github_cfg";
  h ← new_helper owner name cfg;
  store_name "github_repo_helper" h.

Definition line43 : M unit :=
  h ← load_name "github_repo_helper";
  repo ← getattr h "repository";
  m ← getattr repo "release_from_tag";
  tag ← load_name "version_file_contents";
  r ← call_release_from_tag m tag;
  store_name "gh_release" r.

Definition line45 : M unit :=
  d ← load_name "repo_dir";
  p ← path_resolve d;
  store_name "repo_path" p.

Definition line46 : M unit :=
  d ← load_name "output_dir";
  p ← path_resolve d;
  store_name "output_path" p.

Definition line47 : M unit :=
  p ← load_name "repo_path";
  n ← load_name "VERSION_FILE_NAME";
  q ← truediv p n;
  store_name "version_file_path" q.

Definition line49 : M unit :=
  o ← load_name "output_path";
  b ← load_name "binary";
  d ← getattr b "path";
  q ← truediv o d;
  b' ← load_name "binary";
  n ← getattr b' "name";
  r ← truediv q n;
  store_name "output_file_path" r.

(** Line 53, the f-string [f'{bin.name}-{version_file_contents}']. *)
Definition line53 : M pyval :=
  b ← load_name "bin";
  n ← getattr b "name";
  v ← load_name "version_file_contents";
  mret (VStr (py_str n +:+ "-" +:+ py_str v)).

(** Line 54, [output_file_path.open(mode='rb')]. *)
Definition line54 : M pyval :=
  p ← load_name "output_file_path";
  m ← getattr p "open";
  call_open m.

(** What is left of the call once [name=] has a value: the [asset=]
    argument is evaluated, then the method is invoked. *)
Definition open_then_upload (m content_type name : pyval) : M unit :=
  asset ← line54;
  call_upload_asset m content_type name asset.

(** Lines 51-55.  Python evaluates the callee, then the keyword
    arguments from left to right, then makes the call. *)
Definition line51_55 : M unit :=
  r ← load_name "gh_release";
  m ← getattr r "upload_asset";
  name ← line53;
  open_then_upload m (VStr "application/octet-stream") name.

Definition loop_body : M unit :=
  line49;; line51_55.

Definition line48_55 : M unit :=
  l ← load_name "OUTPUT_FILE_BINARIES";
  items ← as_list l;
  for_each "binary" loop_body items.

(** Lines 45-55: path resolution and the upload loop. *)
Definition line45_55 : M unit :=
  line45;; line46;; line47;; line48_55.

(** The script from the release lookup to its end. *)
Definition from_line43 : M unit :=
  line43;; line45_55.

(** The configuration lookup, the helper and the release lookup. *)
Definition line34_43 : M unit :=
  line34;; line35;; line37_41;; line43.

(** The version read up to the release lookup. *)
Definition line32_43 : M unit :=
  line32;; line34_43.

Definition from_line32 : M unit :=
  line32_43;; line45_55.

Definition line26_30 : M unit :=
  line26;; line27;; line28;; line30.

Definition main : M unit :=
  line3_12;; line14_23;; line24;; line26_30;; from_line32.

Definition run : outcome unit * state := main init.

End Script.

(** ** What the specification says, in its own words *)






(** The three variables of lines 26-28, in the order they are checked. *)
Definition required_env : list string :=
  ["SOURCE_GITHUB_REPO_OWNER_AND_NAME"; "MAIN_REPO_DIR"; "BINARY_PATH"].

(** Number of occurrences of a character. *)
Fixpoint count_sep (c : ascii) (s : string) : nat :=
  match s with
  | EmptyString => 0
  | String a s' => (if Ascii.eqb a c then 1 else 0) + count_sep c s'
  end.

(** The [ValueError] of a tuple assignment whose right-hand side does not
    have two items. *)
Definition unpack_error (parts : list string) : pyexc :=
  match parts with
  | [] | [_] => ValueError "not enough values to unpack"
  | _ => ValueError "too many values to unpack"
  end.

(** State updates, for stating results. *)
Definition with_trace (st : state) (tr : list event) : state :=
  {| globals := globals st; trace := tr; open_files := open_files st |}.

Definition with_global (st : state) (x : string) (v : pyval) : state :=
  {| globals := <[x := v]> (globals st); trace := trace st;
     open_files := open_files st |}.

(** From [st] to [st'] the trace and the open files have only grown and
    [bin] has not been assigned. *)
Definition grows (st st' : state) : Prop :=
  (∃ tr, trace st' = (trace st ++ tr)%list) ∧
  (∃ l, open_files st' = (open_files st ++ l)%list) ∧
  (globals st !! "bin" = None → globals st' !! "bin" = None).

Definition steady {A} (m : M A) : Prop := ∀ st, grows st (snd (m st)).

(** Statements that touch nothing outside the namespace. *)
Definition quiet {A} (m : M A) : Prop :=
  ∀ st, trace (snd (m st)) = trace st ∧
        open_files (snd (m st)) = open_files st ∧
        (globals st !! "bin" = None → globals (snd (m st)) !! "bin" = None).

(** [sep.join(parts)] for a one-character separator. *)
Fixpoint join_with (sep : ascii) (parts : list string) : string :=
  match parts with
  | [] => ""
  | [p] => p
  | p :: rest => p +:+ String sep (join_with sep rest)
  end.

Definition is_open (e : event) : bool :=
  match e with
  | EOpen _ => true
  | _ => false
  end.

Definition opens (tr : list event) : list event :=
  filter (λ e, is_open e = true) tr.

(** From [st] to [st'] no binary has been opened and nothing uploaded. *)
Definition untouched (st st' : state) : Prop :=
  opens (trace st') = opens (trace st) ∧
  uploads (trace st') = uploads (trace st) ∧
  open_files st' = open_files st.

(** Statements that, run where [bin] is unassigned, open and upload
    nothing and leave [bin] unassigned. *)
Definition dry {A} (m : M A) : Prop :=
  ∀ st, globals st !! "bin" = None →
        untouched st (snd (m st)) ∧ globals (snd (m st)) !! "bin" = None.

(** ** Concrete worlds *)

Module Example.


Definition env_ok : gmap string string :=
  <["SOURCE_GITHUB_REPO_OWNER_AND_NAME" := "gardener/gardenctl-v2"]>
    (<["MAIN_REPO_DIR" := "/repo"]> (<["BINARY_PATH" := "/out"]> ∅)).

Definition darwin_file : path :=
  ["out"; "darwin-amd64"; "gardenctl_v2_darwin_amd64"].

Definition linux_file : path :=
  ["out"; "linux-amd64"; "gardenctl_v2_linux_amd64"].

Definition version_file : path := ["repo"; "VERSION"].

(** Everything a successful publication needs is in place. *)
Definition ready : world :=
  {| environ := env_ok;
     github_cfgs := {["github_com" := "github-com-cfg"]};
     resolve := path_parts;
     files := <[version_file := "v2.0.0"]>
                (<[darwin_file := "darwin-bytes"]>
                   (<[linux_file := "linux-bytes"]> ∅));
     releases := [("gardener", "gardenctl-v2", "v2.0.0")];
     upload_accepts := λ _, true |}.


(** As [ready], but there is no VERSION file. *)
Definition no_version_file : world :=
  {| environ := env_ok;
     github_cfgs := github_cfgs ready;
     resolve := path_parts;
     files := delete version_file (files ready);
     releases := releases ready;
     upload_accepts := λ _, true |}.

(** As [ready], but no release carries the tag. *)
Definition no_release : world :=
  {| environ := env_ok;
     github_cfgs := github_cfgs ready;
     resolve := path_parts;
     files := files ready;
     releases := [];
     upload_accepts := λ _, true |}.



(** The repository identifier has no [/]. *)
Definition no_slash : world :=
  {| environ := <["SOURCE_GITHUB_REPO_OWNER_AND_NAME" := "gardenctl-v2"]>
                  env_ok;
     github_cfgs := github_cfgs ready;
     resolve := path_parts;
     files := files ready;
     releases := releases ready;
     upload_accepts := λ _, true |}.

(** [BINARY_PATH] is not set. *)
Definition no_binary_path : world :=
  {| environ := delete "BINARY_PATH" env_ok;
     github_cfgs := github_cfgs ready;
     resolve := path_parts;
     files := files ready;
     releases := releases ready;
     upload_accepts := λ _, true |}.

(** The namespace the script has built when it stops at line 32. *)
Definition at_line32 (w : world) : state := snd (run w).

(** The same namespace with [version_file_path] bound the way line 47
    would bind it. *)
Definition with_version_path (w : world) : state :=
  with_global (at_line32 w) "version_file_path" (VPath version_file).

(** The namespace the script has built when it reaches line 30. *)
Definition at_line30 (w : world) : state :=
  snd ((line3_12;; line14_23;; line24;;
        line26 w;; line27 w;; line28 w) init).

(** Line 43 is reached with the helper and the version text bound. *)
Definition at_line43 (w : world) : state :=
  with_global
    (with_global (at_line32 w) "version_file_contents" (VStr "v2.0.0"))
    "github_repo_helper"
    (VHelper "gardener" "gardenctl-v2" "github-com-cfg").







End Example.

(** * Properties *)

(** ** Strings *)

Lemma split_on_nonempty c s : split_on c s ≠ [].
Proof.
  destruct s as [|a s]; simpl; [done|].
  destruct (Ascii.eqb a c); [done|]. by destruct (split_on c s).
Qed.



Lemma split_on_length c s : length (split_on c s) = S (count_sep c s).
Proof.
  induction s as [|a s IH]; simpl; [done|].
  destruct (Ascii.eqb a c); simpl; [by rewrite IH|].
  destruct (split_on c s) eqn:E; simpl in *; [done|]. lia.
Qed.

Lemma split_on_one_sep c s :
  count_sep c s = 1 → ∃ o n, split_on c s = [o; n].
Proof.
  intros H. pose proof (split_on_length c s) as L. rewrite H in L.
  destruct (split_on c s) as [|o [|n [|? ?]]]; simpl in L; try lia.
  by exists o, n.
Qed.

(** ** The monad *)

Section Properties.
Context (w : world).

Lemma load_name_bound st x v :
  globals st !! x = Some v → load_name x st = (Ok v, st).
Proof. intros H. unfold load_name. by rewrite H. Qed.

Lemma bind_ok {A B} (m : M A) (k : A → M B) st a st' :
  m st = (Ok a, st') → (m ≫= k) st = k a st'.
Proof. intros H. unfold mbind, M_bind, bind. by rewrite H. Qed.

Lemma bind_raise {A B} (m : M A) (k : A → M B) st e st' :
  m st = (Raise e, st') → (m ≫= k) st = (Raise e, st').
Proof. intros H. unfold mbind, M_bind, bind. by rewrite H. Qed.

Lemma bind_assoc {A B C} (m : M A) (f : A → M B) (g : B → M C) st :
  ((m ≫= f) ≫= g) st = (m ≫= λ a, f a ≫= g) st.
Proof.
  unfold mbind, M_bind, bind. destruct (m st) as [[a|e] st']; done.
Qed.

(** The script is the blocks in sequence, however they are grouped. *)
Lemma main_from_line43 st :
  main w st =
  (line3_12;; line14_23;; line24;; line26_30 w;;
   line32 w;; line34;; line35 w;; line37_41;; from_line43 w) st.
Proof.
  unfold main, from_line32, line32_43, line34_43, from_line43.
  unfold mbind, M_bind, bind.
  destruct (line3_12 st) as [[[]|?] s1]; [|done].
  destruct (line14_23 s1) as [[[]|?] s2]; [|done].
  destruct (line24 s2) as [[[]|?] s3]; [|done].
  destruct (line26_30 w s3) as [[[]|?] s4]; [|done].
  destruct (line32 w s4) as [[[]|?] s5]; [|done].
  destruct (line34 s5) as [[[]|?] s6]; [|done].
  destruct (line35 w s6) as [[[]|?] s7]; [|done].
  by destruct (line37_41 s7) as [[[]|?] s8].
Qed.

(** ** Whole runs *)

Ltac concrete_steps :=
  cbv [mbind M_bind bind mret M_ret ret raise store_name emit mark_open
       with_trace with_global fst snd trace open_files globals init].

Ltac lookup_steps :=
  repeat first
    [ rewrite lookup_insert_eq
    | rewrite lookup_insert_ne by discriminate
    | rewrite lookup_empty ].

(** Every run stops in lines 26-32: at the first variable that fails the
    check, at the tuple assignment of line 30, or at the unbound name of
    line 32.  Nothing outside the process has been touched by then. *)
Lemma run_outcome :
  trace (snd (run w)) = [] ∧ open_files (snd (run w)) = [] ∧
  globals (snd (run w)) !! "version_file_path" = None ∧
  globals (snd (run w)) !! "bin" = None ∧
  fst (run w) =
    match env_value w "SOURCE_GITHUB_REPO_OWNER_AND_NAME",
          env_value w "MAIN_REPO_DIR", env_value w "BINARY_PATH" with
    | None, _, _ =>
        Raise (ConfigurationError "SOURCE_GITHUB_REPO_OWNER_AND_NAME")
    | Some _, None, _ => Raise (ConfigurationError "MAIN_REPO_DIR")
    | Some _, Some _, None => Raise (ConfigurationError "BINARY_PATH")
    | Some r, Some _, Some _ =>
        match split_on "/" r with
        | [_; _] => Raise (NameError "version_file_path")
        | parts => Raise (unpack_error parts)
        end
    end.
Proof.
  unfold run, main, from_line32, line32_43, line26_30, line26, line27,
    line28, check_env, line3_12, line14_23, line24.
  destruct (env_value w "SOURCE_GITHUB_REPO_OWNER_AND_NAME") as [r|];
    [|concrete_steps; lookup_steps; done].
  destruct (env_value w "MAIN_REPO_DIR") as [d|];
    [|concrete_steps; lookup_steps; done].
  destruct (env_value w "BINARY_PATH") as [b|];
    [|concrete_steps; lookup_steps; done].
  unfold line30, line32, load_name, str_split. concrete_steps. lookup_steps.
  destruct (split_on "/" r) as [|o [|n [|x l]]]; cbn [fmap list_fmap];
    lookup_steps; done.
Qed.

Lemma env_value_None v :
  env_value w v = None ↔ environ w !! v = None ∨ environ w !! v = Some "".
Proof.
  unfold env_value. destruct (environ w !! v) as [s|]; [|tauto].
  destruct (String.eqb_spec s "") as [->|Hne]; [tauto|].
  split; [done|]. intros [?|[=]]; [done|]. by destruct Hne.
Qed.

(** C6.  If one of the three required environment variables is absent
    or empty, the run fails with a configuration error naming a missing
    variable, and it has read no file, looked up no release, opened and
    uploaded nothing. *)
Theorem C6_missing_env_fails_first v :
  v ∈ required_env →
  environ w !! v = None ∨ environ w !! v = Some "" →
  ∃ v', v' ∈ required_env ∧ env_value w v' = None ∧
    fst (run w) = Raise (ConfigurationError v') ∧
    trace (snd (run w)) = [] ∧ open_files (snd (run w)) = [].
Proof.
  intros Hv Hmiss%env_value_None.
  destruct run_outcome as (Ht & Ho & _ & _ & Hr).
  assert (∀ x, x ∈ required_env → env_value w x = None →
               fst (run w) = Raise (ConfigurationError x) →
               ∃ v', v' ∈ required_env ∧ env_value w v' = None ∧
                 fst (run w) = Raise (ConfigurationError v') ∧
                 trace (snd (run w)) = [] ∧ open_files (snd (run w)) = [])
    as Hfound by (intros x ? ? ?; by exists x).
  unfold required_env in *.
  destruct (env_value w "SOURCE_GITHUB_REPO_OWNER_AND_NAME") eqn:E1;
    [|apply (Hfound "SOURCE_GITHUB_REPO_OWNER_AND_NAME" ltac:(repeat constructor) E1 Hr)].
  destruct (env_value w "MAIN_REPO_DIR") eqn:E2;
    [|apply (Hfound "MAIN_REPO_DIR" ltac:(repeat constructor) E2 Hr)].
  destruct (env_value w "BINARY_PATH") eqn:E3;
    [|apply (Hfound "BINARY_PATH" ltac:(repeat constructor) E3 Hr)].
  repeat (apply elem_of_cons in Hv as [->|Hv]); try congruence.
  by apply elem_of_nil in Hv.
Qed.

(** C3, amended.  When all three variables pass the check, the run
    stops before any file read, release lookup or upload, with
    [version_file_path] still unassigned: at line 32 with the unbound-name
    error if the repository identifier has exactly one [/], and at the
    tuple assignment of line 30 otherwise. *)
Theorem C3_stops_at_unbound_version_file_path r d b :
  env_value w "SOURCE_GITHUB_REPO_OWNER_AND_NAME" = Some r →
  env_value w "MAIN_REPO_DIR" = Some d →
  env_value w "BINARY_PATH" = Some b →
  (count_sep "/" r = 1 →
   fst (run w) = Raise (NameError "version_file_path")) ∧
  (count_sep "/" r ≠ 1 →
   fst (run w) = Raise (unpack_error (split_on "/" r))) ∧
  globals (snd (run w)) !! "version_file_path" = None ∧
  trace (snd (run w)) = [].
Proof.
  intros E1 E2 E3.
  destruct run_outcome as (Ht & _ & Hg & _ & Hr).
  rewrite E1, E2, E3 in Hr.
  pose proof (split_on_length "/" r) as L.
  split_and!; [| |done..].
  - intros H1. destruct (split_on_one_sep _ _ H1) as (o & n & E).
    by rewrite E in Hr.
  - intros H1. destruct (split_on "/" r) as [|o [|n [|x l]]];
      simpl in L; try done. lia.
Qed.

(** ** Blocks of the script, from any namespace *)

Ltac monad_steps :=
  cbv [mbind M_bind bind mret M_ret ret raise store_name emit mark_open
       with_trace with_global];
  cbn [fst snd trace open_files globals].

Ltac literal_steps :=
  repeat match goal with
    | |- context [String.eqb ?a ?b] =>
        let r := eval vm_compute in (String.eqb a b) in
        change (String.eqb a b) with r
    | |- context [bool_decide (?x ∈ builtin_functions)] =>
        let r := eval vm_compute in (bool_decide (x ∈ builtin_functions)) in
        change (bool_decide (x ∈ builtin_functions)) with r
    end.

Ltac exec :=
  repeat (monad_steps;
          cbv [load_name getattr str_split path_resolve truediv
               call_read_text call_open call_github new_helper
               call_release_from_tag call_upload_asset as_list];
          monad_steps; lookup_steps; literal_steps;
          cbv beta iota; cbn [orb andb negb]).


(** ** What no statement of the script undoes *)


Lemma grows_refl st : grows st st.
Proof. split_and!; [by exists []; rewrite app_nil_r..|done]. Qed.

Lemma grows_trans st1 st2 st3 : grows st1 st2 → grows st2 st3 → grows st1 st3.
Proof.
  intros ([t1 H1] & [l1 H2] & H3) ([t2 H4] & [l2 H5] & H6). split_and!.
  - exists (t1 ++ t2)%list. by rewrite H4, H1, app_assoc.
  - exists (l1 ++ l2)%list. by rewrite H5, H2, app_assoc.
  - auto.
Qed.

Lemma steady_bind {A B} (m : M A) (k : A → M B) :
  steady m → (∀ a, steady (k a)) → steady (m ≫= k).
Proof.
  intros Hm Hk st. unfold mbind, M_bind, bind.
  specialize (Hm st). destruct (m st) as [[a|e] st']; [|done].
  eapply grows_trans; [exact Hm|apply Hk].
Qed.

Lemma steady_ret {A} (a : A) : steady (mret a).
Proof. intros st. apply grows_refl. Qed.

Lemma steady_raise {A} e : steady (@raise A e).
Proof. intros st. apply grows_refl. Qed.

Lemma steady_emit e : steady (emit e).
Proof.
  intros st. split_and!; cbn; [by eexists|by exists []; rewrite app_nil_r|done].
Qed.

Lemma steady_mark_open p : steady (mark_open p).
Proof.
  intros st. split_and!; cbn; [by exists []; rewrite app_nil_r|by eexists|done].
Qed.

Lemma steady_store_name x v : x ≠ "bin" → steady (store_name x v).
Proof.
  intros Hx st.
  split_and!; cbn; [by exists []; rewrite app_nil_r..|].
  intros H. by rewrite lookup_insert_ne.
Qed.

Lemma steady_load_name x : steady (load_name x).
Proof.
  intros st. unfold load_name. repeat case_match; apply grows_refl.
Qed.

Ltac steady_step :=
  first
    [ apply steady_bind; [|intros ?]
    | apply steady_ret
    | apply steady_raise
    | apply steady_emit
    | apply steady_mark_open
    | apply steady_store_name; discriminate
    | apply steady_load_name
    | case_match ].

Lemma steady_getattr v a : steady (getattr v a).
Proof. unfold getattr. repeat steady_step. Qed.

Lemma steady_check_env x : steady (check_env w x).
Proof. unfold check_env. repeat steady_step. Qed.

Lemma steady_str_split v c : steady (str_split v c).
Proof. unfold str_split. repeat steady_step. Qed.

Lemma steady_path_resolve v : steady (path_resolve w v).
Proof. unfold path_resolve. repeat steady_step. Qed.

Lemma steady_truediv l r : steady (truediv l r).
Proof. unfold truediv. repeat steady_step. Qed.

Lemma steady_call_read_text m : steady (call_read_text w m).
Proof. unfold call_read_text. repeat steady_step. Qed.

Lemma steady_call_open m : steady (call_open w m).
Proof. unfold call_open. repeat steady_step. Qed.

Lemma steady_call_github m x : steady (call_github w m x).
Proof. unfold call_github. repeat steady_step. Qed.

Lemma steady_new_helper a b c : steady (new_helper a b c).
Proof. unfold new_helper. repeat steady_step. Qed.

Lemma steady_call_release_from_tag m t : steady (call_release_from_tag w m t).
Proof. unfold call_release_from_tag. repeat steady_step. Qed.

Lemma steady_call_upload_asset m a b c : steady (call_upload_asset w m a b c).
Proof. unfold call_upload_asset. repeat steady_step. Qed.

Lemma steady_as_list v : steady (as_list v).
Proof. unfold as_list. repeat steady_step. Qed.

Ltac steady_script :=
  repeat first
    [ apply steady_getattr | apply steady_check_env | apply steady_str_split
    | apply steady_path_resolve | apply steady_truediv
    | apply steady_call_read_text | apply steady_call_open
    | apply steady_call_github | apply steady_new_helper
    | apply steady_call_release_from_tag | apply steady_call_upload_asset
    | apply steady_as_list | steady_step ].

Lemma steady_for_each var body items :
  var ≠ "bin" → steady body → steady (for_each var body items).
Proof.
  intros Hv Hb. induction items as [|x items IH]; cbn [for_each].
  - apply steady_ret.
  - apply steady_bind; [by apply steady_store_name|intros _].
    apply steady_bind; [done|intros _; done].
Qed.

Lemma steady_loop_body : steady (loop_body w).
Proof.
  unfold loop_body, line49, line51_55, line53, open_then_upload, line54.
  steady_script.
Qed.

Lemma steady_main : steady (main w).
Proof.
  unfold main, line3_12, line14_23, line24, line26_30, line26, line27,
    line28, line30, from_line32, line32_43, line32, line34_43, line34,
    line35, line37_41, line43, line45_55, line45, line46, line47, line48_55.
  repeat first
    [ apply steady_for_each; [discriminate|apply steady_loop_body]
    | progress steady_script ].
Qed.


Lemma quiet_bind {A B} (m : M A) (k : A → M B) :
  quiet m → (∀ a, quiet (k a)) → quiet (m ≫= k).
Proof.
  intros Hm Hk st. unfold mbind, M_bind, bind.
  destruct (Hm st) as (H1 & H2 & H3).
  destruct (m st) as [[a|e] st']; [|done].
  destruct (Hk a st') as (H4 & H5 & H6). cbn [snd] in *.
  split_and!; [congruence..|auto].
Qed.

Lemma quiet_ret {A} (a : A) : quiet (mret a).
Proof. by intros st. Qed.

Lemma quiet_raise {A} e : quiet (@raise A e).
Proof. by intros st. Qed.

Lemma quiet_store_name x v : x ≠ "bin" → quiet (store_name x v).
Proof.
  intros Hx st. split_and!; [done..|]. cbn. intros H.
  by rewrite lookup_insert_ne.
Qed.

Lemma load_name_state x st : snd (load_name x st) = st.
Proof. unfold load_name. by repeat case_match. Qed.

Lemma quiet_load_name x : quiet (load_name x).
Proof. intros st. by rewrite load_name_state. Qed.

Lemma getattr_state v a st : snd (getattr v a st) = st.
Proof. unfold getattr. by repeat case_match. Qed.

Lemma quiet_getattr v a : quiet (getattr v a).
Proof. intros st. by rewrite getattr_state. Qed.

Lemma quiet_truediv l r : quiet (truediv l r).
Proof. intros st. unfold truediv. by repeat case_match. Qed.

Lemma quiet_line49 : quiet line49.
Proof.
  unfold line49.
  repeat first
    [ apply quiet_bind; [|intros ?] | apply quiet_load_name
    | apply quiet_getattr | apply quiet_truediv
    | apply quiet_store_name; discriminate ].
Qed.

Lemma line53_unbound st :
  globals st !! "bin" = None →
  line53 st =
    (Raise (AttributeError "builtin_function_or_method" "name"), st).
Proof. intros Hs. unfold line53. exec. rewrite Hs. exec. done. Qed.

(** With [bin] unassigned an iteration of the loop raises before it has
    opened or uploaded anything. *)
Lemma iteration_raises st b :
  globals st !! "bin" = None →
  ∃ e st',
    (store_name "binary" b;; loop_body w) st = (Raise e, st') ∧
    trace st' = trace st ∧ open_files st' = open_files st.
Proof.
  intros Hbin.
  rewrite (bind_ok _ _ st tt (with_global st "binary" b)) by done.
  set (s1 := with_global st "binary" b).
  assert (globals s1 !! "bin" = None) as Hbin1
    by (subst s1; cbn; by rewrite lookup_insert_ne).
  destruct (quiet_line49 s1) as (Ht & Ho & Hb). specialize (Hb Hbin1).
  unfold loop_body.
  destruct (line49 s1) as [[[]|e] s2] eqn:E49; cbn [snd] in *.
  2:{ rewrite (bind_raise _ _ _ _ _ E49). by exists e, s2. }
  rewrite (bind_ok _ _ _ _ _ E49). unfold line51_55.
  pose proof (load_name_state "gh_release" s2) as HL.
  destruct (load_name "gh_release" s2) as [[r|e] s3] eqn:EL;
    cbn [snd] in HL; subst s3.
  2:{ rewrite (bind_raise _ _ _ _ _ EL). by exists e, s2. }
  rewrite (bind_ok _ _ _ _ _ EL).
  pose proof (getattr_state r "upload_asset" s2) as HG.
  destruct (getattr r "upload_asset" s2) as [[m|e] s3] eqn:EG;
    cbn [snd] in HG; subst s3.
  2:{ rewrite (bind_raise _ _ _ _ _ EG). by exists e, s2. }
  rewrite (bind_ok _ _ _ _ _ EG).
  rewrite (bind_raise _ _ _ _ _ (line53_unbound s2 Hb)).
  by eexists _, s2.
Qed.

Lemma getattr_pure v a : ∃ r, ∀ st, getattr v a st = (r, st).
Proof. unfold getattr. repeat case_match; by eexists. Qed.

(** The f-string of line 53 reads [bin] and [version_file_contents] and
    nothing else. *)
Lemma line53_reads st st' :
  globals st !! "bin" = globals st' !! "bin" →
  globals st !! "version_file_contents" =
    globals st' !! "version_file_contents" →
  fst (line53 st) = fst (line53 st').
Proof.
  intros Hb Hv. unfold line53, load_name. monad_steps. rewrite Hb.
  destruct (globals st' !! "bin") as [b|]; literal_steps; cbv beta iota.
  - destruct (getattr_pure b "name") as [[x|e] Hr]; rewrite !Hr; [|done].
    rewrite Hv.
    by destruct (globals st' !! "version_file_contents");
      literal_steps; cbv beta iota.
  - destruct (getattr_pure (VBuiltin "bin") "name") as [[x|e] Hr];
      rewrite !Hr; [|done].
    rewrite Hv.
    by destruct (globals st' !! "version_file_contents");
      literal_steps; cbv beta iota.
Qed.

(** ** The claims about blocks of the script *)



(** C5.  If the lookup of line 43 finds no release with the version
    tag, the rest of the script ends there with the not-found error; the
    lookup is the only thing it has asked of the hosting service: no
    upload, and no release is created. *)
Theorem C5_missing_release_aborts st o n cfg tag :
  globals st !! "github_repo_helper" = Some (VHelper o n cfg) →
  globals st !! "version_file_contents" = Some (VStr tag) →
  has_release w o n tag = false →
  from_line43 w st =
    (Raise (NotFoundError tag),
     with_trace st (trace st ++ [ELookup o n tag])).
Proof.
  intros Hh Hv Hr. unfold from_line43, line43.
  exec. rewrite Hh. exec. rewrite Hv. exec. rewrite Hr. done.
Qed.


(** C9.  The script never assigns [bin], so the asset-name expression
    of line 53 resolves it to the built-in function and fails on its
    [name] attribute.  Every run that enters the loop therefore stops in
    its first iteration with nothing opened or uploaded, and the value of
    the expression does not depend on the loop variable [binary]. *)
Theorem C9_asset_name_fails_on_bin st :
  globals st !! "bin" = None →
  line53 st =
    (Raise (AttributeError "builtin_function_or_method" "name"), st) ∧
  (∀ b later, ∃ e st',
     for_each "binary" (loop_body w) (b :: later) st = (Raise e, st') ∧
     trace st' = trace st ∧ open_files st' = open_files st) ∧
  (∀ out o n t,
     globals st !! "output_path" = Some (VPath out) →
     globals st !! "gh_release" = Some (VRelease o n t) →
     fst (for_each "binary" (loop_body w) OUTPUT_FILE_BINARIES st) =
       Raise (AttributeError "builtin_function_or_method" "name")) ∧
  (∀ st0 v, fst (line53 (with_global st0 "binary" v)) = fst (line53 st0)) ∧
  globals (snd (main w st)) !! "bin" = None.
Proof.
  intros Hbin. split_and!.
  - by apply line53_unbound.
  - intros b later.
    destruct (iteration_raises st b Hbin) as (e & st' & H & Ht & Ho).
    exists e, st'. split_and!; [|done..].
    cbn [for_each]. rewrite <- bind_assoc. by apply bind_raise.
  - intros out o n t Hout Hrel.
    unfold OUTPUT_FILE_BINARIES. cbn [for_each].
    unfold loop_body, line49, line51_55, line53.
    exec. rewrite Hout. exec. rewrite Hrel. exec. rewrite Hbin. exec. done.
  - intros st0 v. apply line53_reads; cbn; by rewrite lookup_insert_ne.
  - by apply steady_main.
Qed.


End Properties.

(** * The claims at concrete inputs *)

(** C1.  In a world where the three variables are set, the VERSION file
    and both binaries exist and the release is there, the run stops at
    line 32 with the unbound name and makes no upload call.  Started at
    line 32 with [version_file_path] bound, the script reaches the loop and
    stops in its first iteration on [bin.name], again with no upload. *)
Theorem C1_ready_world_uploads_nothing :
  fst (run Example.ready) = Raise (NameError "version_file_path") ∧
  trace (snd (run Example.ready)) = [] ∧
  (let r := from_line32 Example.ready
              (Example.with_version_path Example.ready) in
   fst r = Raise (AttributeError "builtin_function_or_method" "name") ∧
   trace (snd r) =
     [EReadText Example.version_file;
      ELookup "gardener" "gardenctl-v2" "v2.0.0"] ∧
   uploads (trace (snd r)) = []).
Proof. by vm_compute. Qed.



(** C3 fails as stated: with all three variables set and an identifier
    without [/], the run stops at the tuple assignment of line 30 and never
    reaches the use of [version_file_path]. *)
Lemma C3_identifier_without_slash :
  let w := Example.no_slash in
  env_value w "SOURCE_GITHUB_REPO_OWNER_AND_NAME" = Some "gardenctl-v2" ∧
  env_value w "MAIN_REPO_DIR" = Some "/repo" ∧
  env_value w "BINARY_PATH" = Some "/out" ∧
  fst (run w) = Raise (ValueError "not enough values to unpack") ∧
  fst (run w) ≠ Raise (NameError "version_file_path").
Proof. by vm_compute. Qed.

Lemma C3_stops_at_unbound_version_file_path_witness :
  let w := Example.ready in
  let r := "gardener/gardenctl-v2" in
  (count_sep "/" r = 1 →
   fst (run w) = Raise (NameError "version_file_path")) ∧
  (count_sep "/" r ≠ 1 →
   fst (run w) = Raise (unpack_error (split_on "/" r))) ∧
  globals (snd (run w)) !! "version_file_path" = None ∧
  trace (snd (run w)) = [].
Proof.
  apply (C3_stops_at_unbound_version_file_path Example.ready
           "gardener/gardenctl-v2" "/repo" "/out");
    vm_compute; reflexivity.
Defined.


Lemma C5_missing_release_aborts_witness :
  let st := Example.at_line43 Example.no_release in
  from_line43 Example.no_release st =
    (Raise (NotFoundError "v2.0.0"),
     with_trace st
       (trace st ++ [ELookup "gardener" "gardenctl-v2" "v2.0.0"])).
Proof.
  apply (C5_missing_release_aborts Example.no_release
           (Example.at_line43 Example.no_release)
           "gardener" "gardenctl-v2" "github-com-cfg" "v2.0.0");
    vm_compute; reflexivity.
Defined.

Lemma C6_missing_env_fails_first_witness :
  ∃ v', v' ∈ required_env ∧ env_value Example.no_binary_path v' = None ∧
    fst (run Example.no_binary_path) = Raise (ConfigurationError v') ∧
    trace (snd (run Example.no_binary_path)) = [] ∧
    open_files (snd (run Example.no_binary_path)) = [].
Proof.
  apply (C6_missing_env_fails_first Example.no_binary_path "BINARY_PATH").
  - vm_compute. repeat constructor.
  - left. vm_compute. reflexivity.
Defined.

(** C7.  Without a VERSION file the run stops at line 32 on the unbound
    name, before any attempt to read the file: the error is not an I/O
    error. *)
Theorem C7_missing_version_file_is_not_reported :
  let w := Example.no_version_file in
  files w !! Example.version_file = None ∧
  fst (run w) = Raise (NameError "version_file_path") ∧
  trace (snd (run w)) = [] ∧
  (∀ p, fst (run w) ≠ Raise (IOError p)).
Proof. by vm_compute. Qed.


Lemma C9_asset_name_fails_on_bin_witness :
  let st := Example.with_version_path Example.ready in
  line53 st =
    (Raise (AttributeError "builtin_function_or_method" "name"), st) ∧
  globals (snd (main Example.ready st)) !! "bin" = None.
Proof.
  pose proof (C9_asset_name_fails_on_bin Example.ready
                (Example.with_version_path Example.ready)) as H.
  destruct H as (H1 & _ & _ & _ & H5); [vm_compute; reflexivity|].
  split; [exact H1|exact H5].
Defined.



(** * Further properties of the script *)

Section Further.
Context (w : world).

(** ** Whole runs *)

(** No run of the script ends normally: each one raises, and it has
    touched neither a file nor the hosting service by then. *)
Theorem every_run_aborts_untouched :
  ∃ e, fst (run w) = Raise e ∧
       trace (snd (run w)) = [] ∧ open_files (snd (run w)) = [].
Proof.
  destruct (run_outcome w) as (Ht & Ho & _ & _ & Hr).
  destruct (env_value w "SOURCE_GITHUB_REPO_OWNER_AND_NAME") as [r|];
    [|by eexists].
  destruct (env_value w "MAIN_REPO_DIR"); [|by eexists].
  destruct (env_value w "BINARY_PATH"); [|by eexists].
  destruct (split_on "/" r) as [|o [|n [|x l]]]; by eexists.
Qed.

(** The variables are checked in the order of lines 26-28: the error names
    the first one that fails, whatever the later ones are. *)
Theorem first_failing_variable_is_named pre v post :
  required_env = (pre ++ v :: post)%list →
  (∀ x, x ∈ pre → is_Some (env_value w x)) →
  env_value w v = None →
  fst (run w) = Raise (ConfigurationError v).
Proof.
  intros Hsplit Hpre Hv.
  destruct (run_outcome w) as (_ & _ & _ & _ & Hr).
  unfold required_env in Hsplit.
  destruct pre as [|a [|b [|c pre]]]; simplify_eq/=.
  - by rewrite Hv in Hr.
  - destruct (Hpre "SOURCE_GITHUB_REPO_OWNER_AND_NAME") as [r E1];
      [repeat constructor|].
    by rewrite E1, Hv in Hr.
  - destruct (Hpre "SOURCE_GITHUB_REPO_OWNER_AND_NAME") as [r E1];
      [repeat constructor|].
    destruct (Hpre "MAIN_REPO_DIR") as [d E2]; [repeat constructor|].
    by rewrite E1, E2, Hv in Hr.
  - by destruct pre.
Qed.

(** ** Line 30 *)

Lemma split_on_join c s : join_with c (split_on c s) = s.
Proof.
  induction s as [|a s IH]; simpl; [done|].
  destruct (Ascii.eqb_spec a c) as [->|Hne].
  - pose proof (split_on_nonempty c s) as Hn.
    destruct (split_on c s) as [|p rest]; [done|]. simpl in *. by rewrite IH.
  - pose proof (split_on_nonempty c s) as Hn.
    destruct (split_on c s) as [|p rest]; [done|].
    destruct rest; simpl in *; by rewrite <- IH.
Qed.

Lemma split_on_parts c s : Forall (λ p, occurs c p = false) (split_on c s).
Proof.
  induction s as [|a s IH]; simpl; [by repeat constructor|].
  destruct (Ascii.eqb a c) eqn:E; [by constructor|].
  destruct (split_on c s) as [|p rest]; [by repeat constructor; simpl; rewrite E|].
  inversion IH; subst. constructor; [|done]. simpl. by rewrite E.
Qed.

(** Splitting at a character and joining the parts with it gives the
    string back; no part contains the character, and there is one part
    more than there are occurrences. *)
Theorem split_join_round_trip c s :
  join_with c (split_on c s) = s ∧
  Forall (λ p, occurs c p = false) (split_on c s) ∧
  length (split_on c s) = S (count_sep c s).
Proof.
  split_and!; [apply split_on_join|apply split_on_parts|apply split_on_length].
Qed.

(** ** Blocks, from any namespace *)

Ltac known_names :=
  repeat match goal with
    | H : globals ?s !! ?x = _ |- context [globals ?s !! ?x] => rewrite H
    | H : files w !! ?p = _ |- context [files w !! ?p] => rewrite H
    | H : has_release w ?o ?n ?t = _ |- context [has_release w ?o ?n ?t] =>
        rewrite H
    end.

Ltac literals :=
  repeat match goal with
    | |- context [String.eqb ?a ?b] =>
        let r := eval vm_compute in (String.eqb a b) in
        change (String.eqb a b) with r
    | |- context [bool_decide (?x ∈ builtin_functions)] =>
        let r := eval vm_compute in (bool_decide (x ∈ builtin_functions)) in
        change (bool_decide (x ∈ builtin_functions)) with r
    end.

Ltac block :=
  repeat (cbv [mbind M_bind bind mret M_ret ret raise store_name emit
               mark_open with_trace with_global load_name getattr str_split
               path_resolve truediv call_read_text call_open call_github
               new_helper call_release_from_tag call_upload_asset as_list];
          cbn [fst snd trace open_files globals orb andb negb];
          repeat first [ rewrite lookup_insert_eq
                       | rewrite lookup_insert_ne by discriminate ];
          known_names; literals; cbv beta iota).

(** Line 30 goes through exactly when the identifier has one [/]; when it
    does not, it raises the unpacking error and assigns nothing. *)
Theorem line30_needs_one_slash st r :
  globals st !! "repo_owner_and_name" = Some (VStr r) →
  (count_sep "/" r = 1 ↔ fst (line30 st) = Ok tt) ∧
  (count_sep "/" r ≠ 1 →
   line30 st = (Raise (unpack_error (split_on "/" r)), st)).
Proof.
  intros Hr. pose proof (split_on_length "/" r) as L.
  unfold line30. block.
  destruct (split_on "/" r) as [|o [|n [|x l]]]; simpl in L;
    cbn [fmap list_fmap]; block; cbn [unpack_error].
  all: split; [split; intros ?|intros ?]; try done; try lia.
Qed.

(** When line 30 goes through, [repo_owner] and [repo_name] hold two
    strings without [/] that, put together again around a [/], are the
    identifier. *)
Theorem line30_parts_rejoin st r :
  globals st !! "repo_owner_and_name" = Some (VStr r) →
  fst (line30 st) = Ok tt →
  ∃ o n,
    globals (snd (line30 st)) !! "repo_owner" = Some (VStr o) ∧
    globals (snd (line30 st)) !! "repo_name" = Some (VStr n) ∧
    r = o +:+ "/" +:+ n ∧
    occurs "/" o = false ∧ occurs "/" n = false.
Proof.
  intros Hr. pose proof (split_on_join "/" r) as J.
  pose proof (split_on_parts "/" r) as P.
  unfold line30. block.
  destruct (split_on "/" r) as [|o [|n [|x l]]];
    cbn [fmap list_fmap]; block; try done.
  intros _. exists o, n. block.
  apply Forall_cons in P as [Po P']. apply Forall_cons in P' as [Pn _].
  by rewrite <- J.
Qed.

(** ** Line 32 *)

(** With [version_file_path] holding the path of a file that cannot be
    read, line 32 raises the I/O error for that path after one read attempt
    and assigns nothing. *)
Theorem line32_unreadable_file st p :
  globals st !! "version_file_path" = Some (VPath p) →
  files w !! p = None →
  line32 w st = (Raise (IOError p), with_trace st (trace st ++ [EReadText p])).
Proof. intros Hp Hf. unfold line32. block. done. Qed.

(** ** Lines 45-47 *)


(** ** From the release lookup on *)



(** ** What the script cannot do while [bin] is unassigned *)

Lemma filter_snoc_false {A} (f : A → bool) l x :
  f x = false →
  filter (λ e, f e = true) (l ++ [x])%list = filter (λ e, f e = true) l.
Proof.
  intros H. rewrite filter_app, filter_cons_False, filter_nil, app_nil_r;
    [done|]. by rewrite H.
Qed.

Lemma quiet_dry {A} (m : M A) : quiet m → dry m.
Proof.
  intros Hq st Hbin. destruct (Hq st) as (Ht & Ho & Hb).
  unfold untouched. rewrite Ht. auto.
Qed.

Lemma dry_bind {A B} (m : M A) (k : A → M B) :
  dry m → (∀ a, dry (k a)) → dry (m ≫= k).
Proof.
  intros Hm Hk st Hbin. unfold mbind, M_bind, bind.
  destruct (Hm st Hbin) as ((H1 & H2 & H3) & H4).
  destruct (m st) as [[a|e] st']; cbn [snd] in *; [|done].
  destruct (Hk a st' H4) as ((H5 & H6 & H7) & H8).
  unfold untouched. split_and!; congruence.
Qed.

Lemma dry_emit e : is_open e = false → is_upload e = false → dry (emit e).
Proof.
  intros Ho Hu st Hbin. unfold untouched, opens, uploads. cbn.
  by rewrite !filter_snoc_false.
Qed.

Lemma quiet_cases {A} (m : M A) : (∀ st, snd (m st) = st) → quiet m.
Proof. intros H st. by rewrite H. Qed.

Lemma quiet_check_env x : quiet (check_env w x).
Proof. apply quiet_cases. intros st. unfold check_env. by case_match. Qed.

Lemma quiet_str_split v c : quiet (str_split v c).
Proof. apply quiet_cases. intros st. unfold str_split. by case_match. Qed.

Lemma quiet_path_resolve v : quiet (path_resolve w v).
Proof. apply quiet_cases. intros st. unfold path_resolve. by case_match. Qed.

Lemma quiet_call_github m x : quiet (call_github w m x).
Proof.
  apply quiet_cases. intros st. unfold call_github. by repeat case_match.
Qed.

Lemma quiet_new_helper a b c : quiet (new_helper a b c).
Proof.
  apply quiet_cases. intros st. unfold new_helper. by repeat case_match.
Qed.

Lemma quiet_as_list v : quiet (as_list v).
Proof. apply quiet_cases. intros st. unfold as_list. by case_match. Qed.

Ltac dry_step :=
  first
    [ apply dry_bind; [|intros ?]
    | apply dry_emit; reflexivity
    | apply quiet_dry;
      first [ apply quiet_ret | apply quiet_raise | apply quiet_load_name
            | apply quiet_getattr | apply quiet_truediv
            | apply quiet_store_name; discriminate
            | apply quiet_check_env | apply quiet_str_split
            | apply quiet_path_resolve | apply quiet_call_github
            | apply quiet_new_helper | apply quiet_as_list
            | apply quiet_line49 ]
    | case_match ].

Lemma dry_call_read_text m : dry (call_read_text w m).
Proof. unfold call_read_text. repeat dry_step. Qed.

Lemma dry_call_release_from_tag m t : dry (call_release_from_tag w m t).
Proof. unfold call_release_from_tag. repeat dry_step. Qed.

(** The loop over any list of items: the first iteration raises on
    [bin.name], so nothing is opened or uploaded. *)
Lemma dry_upload_loop items : dry (for_each "binary" (loop_body w) items).
Proof.
  intros st Hbin. split.
  - destruct items as [|b later]; [done|].
    destruct (iteration_raises w st b Hbin) as (e & st' & H & Ht & Ho).
    cbn [for_each]. rewrite <- bind_assoc, (bind_raise _ _ _ _ _ H).
    unfold untouched. cbn [snd]. by rewrite Ht, Ho.
  - by apply (steady_for_each "binary" (loop_body w) items);
      [|apply steady_loop_body|].
Qed.

Lemma dry_main : dry (main w).
Proof.
  unfold main, line3_12, line14_23, line24, line26_30, line26, line27,
    line28, line30, from_line32, line32_43, line32, line34_43, line34,
    line35, line37_41, line43, line45_55, line45, line46, line47, line48_55.
  repeat first
    [ apply dry_upload_loop | apply dry_call_read_text
    | apply dry_call_release_from_tag | dry_step ].
Qed.

(** Started in any namespace that does not assign [bin], and in any world,
    the script opens no binary and uploads nothing. *)
Theorem no_upload_while_bin_unassigned st :
  globals st !! "bin" = None →
  opens (trace (snd (main w st))) = opens (trace st) ∧
  uploads (trace (snd (main w st))) = uploads (trace st) ∧
  open_files (snd (main w st)) = open_files st.
Proof. intros Hbin. by destruct (dry_main st Hbin) as [H _]. Qed.

End Further.

(** ** The further properties at concrete inputs *)

Lemma first_failing_variable_is_named_witness :
  fst (run Example.no_binary_path) = Raise (ConfigurationError "BINARY_PATH").
Proof.
  apply (first_failing_variable_is_named Example.no_binary_path
           ["SOURCE_GITHUB_REPO_OWNER_AND_NAME"; "MAIN_REPO_DIR"]
           "BINARY_PATH" []).
  - reflexivity.
  - intros x Hx.
    repeat (apply elem_of_cons in Hx as [->|Hx]);
      [vm_compute; by eexists..|by apply elem_of_nil in Hx].
  - vm_compute. reflexivity.
Defined.

Lemma line30_needs_one_slash_witness :
  let st := Example.at_line30 Example.ready in
  let r := "gardener/gardenctl-v2" in
  (count_sep "/" r = 1 ↔ fst (line30 st) = Ok tt) ∧
  (count_sep "/" r ≠ 1 →
   line30 st = (Raise (unpack_error (split_on "/" r)), st)).
Proof.
  apply (line30_needs_one_slash (Example.at_line30 Example.ready)
           "gardener/gardenctl-v2").
  vm_compute. reflexivity.
Defined.

Lemma line30_parts_rejoin_witness :
  let st := Example.at_line30 Example.ready in
  ∃ o n,
    globals (snd (line30 st)) !! "repo_owner" = Some (VStr o) ∧
    globals (snd (line30 st)) !! "repo_name" = Some (VStr n) ∧
    "gardener/gardenctl-v2" = o +:+ "/" +:+ n ∧
    occurs "/" o = false ∧ occurs "/" n = false.
Proof.
  apply (line30_parts_rejoin (Example.at_line30 Example.ready)
           "gardener/gardenctl-v2"); vm_compute; reflexivity.
Defined.

Lemma line32_unreadable_file_witness :
  let w := Example.no_version_file in
  let st := Example.with_version_path w in
  line32 w st =
    (Raise (IOError Example.version_file),
     with_trace st (trace st ++ [EReadText Example.version_file])).
Proof.
  apply (line32_unreadable_file Example.no_version_file
           (Example.with_version_path Example.no_version_file)
           Example.version_file); vm_compute; reflexivity.
Defined.



Lemma no_upload_while_bin_unassigned_witness :
  let w := Example.ready in
  let st := Example.with_version_path w in
  opens (trace (snd (main w st))) = opens (trace st) ∧
  uploads (trace (snd (main w st))) = uploads (trace st) ∧
  open_files (snd (main w st)) = open_files st.
Proof.
  apply (no_upload_while_bin_unassigned Example.ready
           (Example.with_version_path Example.ready)).
  vm_compute. reflexivity.
Defined.
